(** * dop-buddy: the [Account] model ([src/db/models/account.py])

    A shallow embedding of the [Account] ORM class, of its validation rules
    and of the two writing operations [save] and [update], together with the
    storage they run against: the [accounts] table and the scoped
    (transactional) session of the database client. *)

From stdpp Require Import base decidable option strings gmap fin_maps pretty.

Local Open Scope Z_scope.
Local Open Scope string_scope.

(** ** Exceptions and results *)

(** The exceptions that [save] and [update] can let escape: the [ValueError]
    raised by the module itself (and by [Enum] look-up), and the
    [IntegrityError] the database raises when a flushed statement breaks a
    constraint of the table. *)
Inductive exception : Type :=
  | ValueError (message : string)
  | IntegrityError.

Inductive result (A : Type) : Type :=
  | Return (a : A)
  | Raise (e : exception).
Arguments Return {A} a.
Arguments Raise {A} e.

#[global] Instance exception_eq_dec : EqDecision exception.
Proof. solve_decision. Defined.

(** ** Python truthiness

    [if x:] and [not x] go through [bool(x)]: [None], the empty string and the
    integer [0] are false, everything else of these types is true. *)
Class Truthy (A : Type) := truthy : A → bool.

#[global] Instance truthy_str : Truthy string :=
  λ s, negb (bool_decide (s = "")).
#[global] Instance truthy_int : Truthy Z :=
  λ n, negb (bool_decide (n = 0)).
#[global] Instance truthy_optional {A} `{Truthy A} : Truthy (option A) :=
  λ o, match o with None => false | Some a => truthy a end.

(** ** The [accounts] table row / the [Account] instance

    Every column attribute of an instance is either [None] or a value of the
    column's Python type. *)
Record Account : Type := mkAccount {
  id : option Z;                    (* Column(Integer, primary_key=True) *)
  account_number : option string;   (* Column(String(30), unique=True, nullable=False) *)
  account_type : option string;     (* Column(String(20), nullable=False) *)
  depositor_1 : option string;      (* Column(String(50), nullable=False) *)
  depositor_2 : option string;      (* Column(String(50), nullable=True) *)
  amount : option Z;                (* Column(Integer, nullable=False) *)
  maturity_date : option string;    (* Column(String(50), nullable=False) *)
  agent : option string             (* Column(String(20), nullable=False) *)
}.

#[global] Instance Account_eq_dec : EqDecision Account.
Proof. solve_decision. Defined.

(** Attribute assignment [obj.column = v], one function per column. *)
Definition with_id (v : option Z) (r : Account) : Account :=
  mkAccount v (account_number r) (account_type r) (depositor_1 r)
            (depositor_2 r) (amount r) (maturity_date r) (agent r).
Definition with_account_number (v : option string) (r : Account) : Account :=
  mkAccount (id r) v (account_type r) (depositor_1 r)
            (depositor_2 r) (amount r) (maturity_date r) (agent r).
Definition with_account_type (v : option string) (r : Account) : Account :=
  mkAccount (id r) (account_number r) v (depositor_1 r)
            (depositor_2 r) (amount r) (maturity_date r) (agent r).
Definition with_depositor_1 (v : option string) (r : Account) : Account :=
  mkAccount (id r) (account_number r) (account_type r) v
            (depositor_2 r) (amount r) (maturity_date r) (agent r).
Definition with_depositor_2 (v : option string) (r : Account) : Account :=
  mkAccount (id r) (account_number r) (account_type r) (depositor_1 r)
            v (amount r) (maturity_date r) (agent r).
Definition with_amount (v : option Z) (r : Account) : Account :=
  mkAccount (id r) (account_number r) (account_type r) (depositor_1 r)
            (depositor_2 r) v (maturity_date r) (agent r).
Definition with_maturity_date (v : option string) (r : Account) : Account :=
  mkAccount (id r) (account_number r) (account_type r) (depositor_1 r)
            (depositor_2 r) (amount r) v (agent r).
Definition with_agent (v : option string) (r : Account) : Account :=
  mkAccount (id r) (account_number r) (account_type r) (depositor_1 r)
            (depositor_2 r) (amount r) (maturity_date r) v.

(** [f"{self.id}"]: [None] prints as [None], an integer in decimal. *)
Definition format_id (i : option Z) : string :=
  match i with None => "None" | Some k => pretty k end.

(** The last character of a message. *)
Fixpoint last_char (s : string) : option Ascii.ascii :=
  match s with
  | EmptyString => None
  | String c EmptyString => Some c
  | String _ s' => last_char s'
  end.

(** ** Storage: the [accounts] table and the scoped session

    The table is a finite map from primary key to row. *)
Abbreviation Table := (gmap Z Account).

(** Code running inside a session: it reads and writes the rows as the open
    transaction sees them and either returns or raises. *)
Definition Tx (A : Type) : Type := Table → Table * result A.

#[global] Instance Tx_ret : MRet Tx := λ A a w, (w, Return a).
#[global] Instance Tx_bind : MBind Tx := λ A B f m w,
  match m w with
  | (w', Return a) => f a w'
  | (w', Raise e) => (w', Raise e)
  end.
Definition raise {A} (e : exception) : Tx A := λ w, (w, Raise e).

(** [if c: stmt] with no [else]. *)
Definition when (c : bool) (stmt : Tx ()) : Tx () :=
  if c then stmt else mret ().

(** [session.query(Account).filter_by(id=i).first()]: the row whose primary
    key is [i], as a reference to the object the session tracks, or [None].
    No row has a null primary key. *)
Definition query_first_by_id (i : option Z) : Tx (option Z) := λ w,
  (w, Return (k ← i; _ ← w !! k; Some k)).

(** [account.column = v] on a loaded row: the session's object changes, the
    UPDATE statement is emitted when the session is flushed on commit. *)
Definition setattr (account : Z) (assign : Account → Account) : Tx () := λ w,
  (alter assign account w, Return ()).
Arguments setattr : simpl never.

(** Constraints of the table. [nullable=False] columns: *)
Definition not_null (r : Account) : bool :=
  bool_decide (is_Some (account_number r)) && bool_decide (is_Some (account_type r))
  && bool_decide (is_Some (depositor_1 r)) && bool_decide (is_Some (amount r))
  && bool_decide (is_Some (maturity_date r)) && bool_decide (is_Some (agent r)).

(** [unique=True] on [account_number]: is the number held by a row other
    than [k]? *)
Definition number_taken (w : Table) (k : Z) (n : option string) : bool :=
  bool_decide (map_Exists (λ k' r, k' ≠ k ∧ account_number r = n) w).

(** The key an INSERT without [id] gets: one more than the largest key. *)
Definition max_id (w : Table) : Z := map_fold (λ k _ m, k `max` m) 0 w.
Definition next_id (w : Table) : Z := 1 + max_id w.

(** [session.add(self); session.flush(); self.id]: the INSERT is emitted at
    once, with the instance's [id] when it has one and a key assigned by the
    database otherwise; the database checks the row against the table. *)
Definition add_flush (self : Account) : Tx Z := λ w,
  let k := default (next_id w) (id self) in
  let row := with_id (Some k) self in
  if negb (not_null row) then (w, Raise IntegrityError)
  else if bool_decide (is_Some (w !! k)) then (w, Raise IntegrityError)
  else if number_taken w k (account_number row) then (w, Raise IntegrityError)
  else (<[k:=row]> w, Return k).

(** The UPDATE emitted at commit for a row that was loaded and assigned to:
    it sets the columns whose value changed, and the database checks those. *)
Definition changed_not_null {A} `{EqDecision A} (old new : option A) : bool :=
  bool_decide (old = new) || bool_decide (is_Some new).

Definition update_accepted (db w : Table) (k : Z) (r : Account) : bool :=
  match db !! k with
  | None => true (* inserted in this transaction: checked by its flush *)
  | Some r0 =>
      changed_not_null (account_number r0) (account_number r)
      && changed_not_null (account_type r0) (account_type r)
      && changed_not_null (depositor_1 r0) (depositor_1 r)
      && changed_not_null (amount r0) (amount r)
      && changed_not_null (maturity_date r0) (maturity_date r)
      && changed_not_null (agent r0) (agent r)
      && (bool_decide (account_number r0 = account_number r)
          || negb (number_taken w k (account_number r)))
  end.

Definition flush_accepted (db w : Table) : bool :=
  bool_decide (map_Forall (λ k r, update_accepted db w k r = true) w).

(** Modelled from the spec: [DopBuddyDbClient.get_scoped_session] of
    [db/client.py], which is not among the sources. The spec describes it as
    a transactional scoped session: the body runs inside one transaction,
    which is committed when the scope is left normally and rolled back when
    an exception leaves it; a commit flushes first, and a flush that the
    database refuses raises and rolls back as well. *)
Definition get_scoped_session {A} (body : Tx A) (db : Table) : Table * result A :=
  match body db with
  | (w, Return a) =>
      if flush_accepted db w then (w, Return a) else (db, Raise IntegrityError)
  | (_, Raise e) => (db, Raise e)
  end.

(** Modelled from the spec: [DopBuddyDbClient.get_session] of [db/client.py],
    which is not among the sources. The spec describes it as the session for
    queries: the body reads the table, which stays as it is. *)
Definition get_session {A} (body : Table → A) (db : Table) : A := body db.

(** [session.query(Account).filter(Account.id.in_(ids)).all()]: the rows
    whose primary key is among [ids], in the order the database yields
    them. *)
Definition query_filter_id_in (ids : list Z) (w : Table) : list Account :=
  (map_to_list (filter (λ kr, kr.1 ∈ ids) w)).*2.

(** ** Sample data

    The row of the class docstring and of the spec's example, a joint
    account, and the tables that hold them. The enumeration's values are
    taken as [single] and [joint], as in the docstring. *)
Definition repr_plain (s : string) : string := "'" +:+ s +:+ "'".

Definition blank : Account :=
  mkAccount None None None None None None None None.

Definition ram : Account :=
  {| id := None; account_number := Some "1000034567";
     account_type := Some "single"; depositor_1 := Some "Ram";
     depositor_2 := None; amount := Some 2000;
     maturity_date := Some "20-02-2027"; agent := Some "3197" |}.


Definition sita_and_ram : Account :=
  {| id := None; account_number := Some "1000034568";
     account_type := Some "joint"; depositor_1 := Some "Sita";
     depositor_2 := Some "Ram"; amount := Some 500;
     maturity_date := Some "01-01-2030"; agent := Some "3197" |}.

Definition one_account : Table := <[1:=with_id (Some 1) ram]> ∅.
Definition two_accounts : Table :=
  <[2:=with_id (Some 2) sita_and_ram]> one_account.

(** ** The model class *)

Section Account.

(** The values of the two members of the enumeration, and Python's [repr] on
    [str] (used by the message of a failed look-up), are parameters. *)
Variables SINGLE_value JOINT_value : string.
Variable repr : string → string.

(** Modelled from the spec: [enums.AccountType], which the module imports but
    which is not among the sources. The spec gives it as the enumeration
    {SINGLE, JOINT}; the [account_type] column holds its values as strings,
    so it is taken to be a string-valued [Enum]
    ([class AccountType(str, Enum)]) without a [_missing_] hook. *)
Inductive AccountType : Type := SINGLE | JOINT.

Definition value (t : AccountType) : string :=
  match t with SINGLE => SINGLE_value | JOINT => JOINT_value end.

(** Members of a string-valued enumeration compare by value, with each other
    and with plain strings. *)
Definition AccountType_eq (a b : AccountType) : bool :=
  bool_decide (value a = value b).
Definition str_eq_AccountType (s : option string) (t : AccountType) : bool :=
  bool_decide (s = Some (value t)).

(** [AccountType(v)]: look-up of the member by value; a value that no member
    has raises [ValueError: <repr(v)> is not a valid AccountType]. *)
Definition AccountType_call (v : option string) : result AccountType :=
  match v with
  | Some s =>
      if bool_decide (s = SINGLE_value) then Return SINGLE
      else if bool_decide (s = JOINT_value) then Return JOINT
      else Raise (ValueError (repr s +:+ " is not a valid AccountType"))
  | None => Raise (ValueError "None is not a valid AccountType")
  end.

(** [Account._is_valid_joint_account] *)
Definition _is_valid_joint_account (self : Account) : result (bool * string) :=
  match AccountType_call (account_type self) with
  | Raise e => Raise e
  | Return acc_type =>
      if AccountType_eq acc_type JOINT && negb (truthy (depositor_2 self))
      then Return (false, "Since account type is "
                            +:+ default "None" (account_type self)
                            +:+ ", hence 2nd depositor is must")
      else Return (true, "")
  end.

(** [Account._is_valid]: the loop over [required_fields] returns at the first
    field that is not truthy. *)
Definition required_fields (self : Account) : list bool :=
  [truthy (account_number self); truthy (account_type self);
   truthy (depositor_1 self); truthy (amount self);
   truthy (maturity_date self); truthy (agent self)].

Fixpoint first_missing (fields : list bool) : bool :=
  match fields with
  | [] => false
  | field :: rest => if negb field then true else first_missing rest
  end.

Definition _is_valid (self : Account) : result (bool * string) :=
  if first_missing (required_fields self)
  then Return (false, "Please make sure required fields are filled correctly!")
  else _is_valid_joint_account self.

(** [Account.fetch] *)
Definition fetch (db_client : Table) (ids : list Z) : list Account :=
  get_session (query_filter_id_in ids) db_client.

(** [Account.update]: the body of the [with] block, then the method. *)
Definition update_body (self : Account) : Tx () :=
  account ← query_first_by_id (id self);
  match account with
  | None => raise (ValueError ("Unknown account id: " +:+ format_id (id self)))
  | Some account =>
      when (truthy (account_number self))
        (setattr account (with_account_number (account_number self)));;
      (if truthy (account_type self) then
         setattr account (with_account_type (account_type self));;
         if str_eq_AccountType (account_type self) JOINT then
           (if negb (truthy (depositor_2 self))
            then raise (ValueError
                   "Since account type is joint, hence 2nd depositor is must")
            else mret ());;
           setattr account (with_depositor_2 (depositor_2 self))
         else
           setattr account (with_depositor_2 None)
       else mret ());;
      when (truthy (depositor_1 self))
        (setattr account (with_depositor_1 (depositor_1 self)));;
      when (truthy (amount self))
        (setattr account (with_amount (amount self)));;
      when (truthy (maturity_date self))
        (setattr account (with_maturity_date (maturity_date self)));;
      when (truthy (agent self))
        (setattr account (with_agent (agent self)))
  end.

Definition update (self : Account) (db_client : Table) : Table * result () :=
  get_scoped_session (update_body self) db_client.

(** [Account.save] *)
Definition save (self : Account) (db_client : Table) : Table * result Z :=
  match _is_valid self with
  | Raise e => (db_client, Raise e)
  | Return (is_valid, error_message) =>
      if is_valid
      then get_scoped_session (add_flush self) db_client
      else (db_client, Raise (ValueError error_message))
  end.


(** ** Vocabulary of the properties *)

(** All six required fields of the instance are non-empty. *)
Definition required_filled (self : Account) : Prop :=
  truthy (account_number self) = true ∧ truthy (account_type self) = true
  ∧ truthy (depositor_1 self) = true ∧ truthy (amount self) = true
  ∧ truthy (maturity_date self) = true ∧ truthy (agent self) = true.

(** What the assignments of [update] make of the loaded row. *)
Definition assign_if_truthy {A} `{Truthy A}
    (v : option A) (set : option A → Account → Account) (r : Account) : Account :=
  if truthy v then set v r else r.

Definition assign_type (self r : Account) : Account :=
  if truthy (account_type self)
  then with_depositor_2
         (if str_eq_AccountType (account_type self) JOINT
          then depositor_2 self else None)
         (with_account_type (account_type self) r)
  else r.

Definition updated_row (self row : Account) : Account :=
  assign_if_truthy (agent self) with_agent
    (assign_if_truthy (maturity_date self) with_maturity_date
      (assign_if_truthy (amount self) with_amount
        (assign_if_truthy (depositor_1 self) with_depositor_1
          (assign_type self
            (assign_if_truthy (account_number self) with_account_number row))))).

Definition joint_without_depositor_2 (self : Account) : bool :=
  truthy (account_type self) && str_eq_AccountType (account_type self) JOINT
  && negb (truthy (depositor_2 self)).

(** Does the database accept the [account_number] the instance carries for
    row [k]? It does when the number is not assigned, is the one the row has
    already, or is held by no other row. *)
Definition number_accepted (db : Table) (k : Z) (self row : Account) : bool :=
  negb (truthy (account_number self))
  || bool_decide (account_number row = account_number self)
  || negb (number_taken db k (account_number self)).

(** The number [n] is held by no stored row other than row [k]. *)
Definition number_free (db : Table) (k : Z) (n : option string) : Prop :=
  ∀ j r, db !! j = Some r → j ≠ k → account_number r ≠ n.

Definition depositor_2_iff_joint (row : Account) : Prop :=
  truthy (depositor_2 row) = true ↔ account_type row = Some JOINT_value.

(** Invariants of the table: every row carries its key as [id]; no two rows
    hold the same [account_number]. *)
Definition ids_consistent (db : Table) : Prop :=
  ∀ k r, db !! k = Some r → id r = Some k.

(** The instance passes the two validation rules. *)
Definition valid (self : Account) : Prop :=
  required_filled self
  ∧ (account_type self = Some SINGLE_value
     ∨ account_type self = Some JOINT_value)
  ∧ (account_type self = Some JOINT_value → truthy (depositor_2 self) = true).

(** ** Reasoning about code in a session *)

Lemma setattr_loaded (k : Z) (assign : Account → Account) (r : Account) (m : Table) :
  setattr k assign (<[k:=r]> m) = (<[k:=assign r]> m, Return ()).
Proof.
  unfold setattr. f_equal. apply map_eq. intros j.
  destruct (decide (k = j)) as [->|Hne].
  - by rewrite lookup_alter_eq, !lookup_insert_eq.
  - by rewrite lookup_alter_ne, !lookup_insert_ne.
Qed.

Lemma query_first_loaded (k : Z) (r : Account) (m : Table) :
  query_first_by_id (Some k) (<[k:=r]> m) = (<[k:=r]> m, Return (Some k)).
Proof. unfold query_first_by_id. simpl. by rewrite lookup_insert_eq. Qed.

Lemma query_first_unknown (i : option Z) (db : Table) :
  (∀ k, i = Some k → db !! k = None) →
  query_first_by_id i db = (db, Return None).
Proof.
  intros Hnone. unfold query_first_by_id. destruct i as [k|]; [|done].
  simpl. by rewrite (Hnone k eq_refl).
Qed.

Ltac tx_step :=
  unfold when, mbind, Tx_bind, mret, Tx_ret, raise;
  rewrite ?query_first_loaded, ?setattr_loaded.

Lemma update_body_loaded (self : Account) (k : Z) (row : Account) (m : Table) :
  id self = Some k →
  update_body self (<[k:=row]> m) =
    if joint_without_depositor_2 self
    then (<[k:=with_account_type (account_type self)
                 (assign_if_truthy (account_number self) with_account_number row)]> m,
          Raise (ValueError "Since account type is joint, hence 2nd depositor is must"))
    else (<[k:=updated_row self row]> m, Return ()).
Proof.
  intros Hid. unfold update_body, joint_without_depositor_2, updated_row,
    assign_type, assign_if_truthy.
  rewrite Hid. tx_step.
  destruct (truthy (account_number self)), (truthy (account_type self)),
    (str_eq_AccountType (account_type self) JOINT), (truthy (depositor_2 self)),
    (truthy (depositor_1 self)), (truthy (amount self)),
    (truthy (maturity_date self)), (truthy (agent self));
    cbn [negb andb]; repeat (tx_step; cbn [negb andb]; cbv beta iota);
    reflexivity.
Qed.

Lemma update_body_found (self : Account) (k : Z) (row : Account) (db : Table) :
  id self = Some k → db !! k = Some row →
  update_body self db =
    if joint_without_depositor_2 self
    then (<[k:=with_account_type (account_type self)
                 (assign_if_truthy (account_number self) with_account_number row)]> db,
          Raise (ValueError "Since account type is joint, hence 2nd depositor is must"))
    else (<[k:=updated_row self row]> db, Return ()).
Proof.
  intros Hid Hrow.
  rewrite <- (insert_id db k row Hrow) at 1.
  rewrite (update_body_loaded self k row db Hid).
  reflexivity.
Qed.

Lemma update_body_unknown (self : Account) (db : Table) :
  (∀ k, id self = Some k → db !! k = None) →
  update_body self db =
    (db, Raise (ValueError ("Unknown account id: " +:+ format_id (id self)))).
Proof.
  intros Hnone. unfold update_body. tx_step.
  by rewrite (query_first_unknown _ _ Hnone).
Qed.

(** ** Reasoning about the table and its constraints *)

Lemma truthy_is_Some {A} `{Truthy A} (o : option A) :
  truthy o = true → is_Some o.
Proof. destruct o; [eauto | discriminate]. Qed.

Lemma changed_not_null_same {A} `{EqDecision A} (o : option A) :
  changed_not_null o o = true.
Proof. unfold changed_not_null. by rewrite bool_decide_eq_true_2. Qed.

Lemma changed_not_null_truthy {A} `{EqDecision A} `{Truthy A} (old new : option A) :
  truthy new = true → changed_not_null old new = true.
Proof.
  intros Hnew. unfold changed_not_null.
  rewrite (bool_decide_eq_true_2 (is_Some new)) by by apply truthy_is_Some.
  apply orb_true_r.
Qed.



Lemma number_taken_insert (w : Table) (k : Z) (r : Account) (n : option string) :
  number_taken (<[k:=r]> w) k n = number_taken w k n.
Proof.
  unfold number_taken. apply bool_decide_ext. unfold map_Exists. split.
  - intros (j & x & [[-> _]|[_ Hj]]%lookup_insert_Some & Hne & Hn); [done|eauto].
  - intros (j & x & Hj & Hne & Hn). exists j, x.
    rewrite lookup_insert_ne by done. eauto.
Qed.

Lemma number_taken_false (w : Table) (k : Z) (n : option string) :
  (∀ j r, w !! j = Some r → j ≠ k → account_number r ≠ n) →
  number_taken w k n = false.
Proof.
  intros Hfree. unfold number_taken. apply bool_decide_eq_false_2.
  intros (j & x & Hj & Hne & Hn). by apply (Hfree j x).
Qed.

Lemma update_accepted_unchanged (db w : Table) (k : Z) (r : Account) :
  db !! k = Some r → update_accepted db w k r = true.
Proof.
  intros Hr. unfold update_accepted. rewrite Hr, !changed_not_null_same.
  by rewrite bool_decide_eq_true_2.
Qed.

Lemma flush_accepted_unchanged (db : Table) : flush_accepted db db = true.
Proof.
  unfold flush_accepted. apply bool_decide_eq_true_2.
  intros k r Hr. by apply update_accepted_unchanged.
Qed.

Lemma flush_accepted_inserted (db : Table) (k : Z) (r : Account) :
  db !! k = None → flush_accepted db (<[k:=r]> db) = true.
Proof.
  intros Hk. unfold flush_accepted. apply bool_decide_eq_true_2.
  intros j x [[<- <-]|[_ Hj]]%lookup_insert_Some.
  - unfold update_accepted. by rewrite Hk.
  - by apply update_accepted_unchanged.
Qed.

Lemma flush_accepted_assigned (db : Table) (k : Z) (r0 r : Account) :
  db !! k = Some r0 →
  flush_accepted db (<[k:=r]> db) = update_accepted db (<[k:=r]> db) k r.
Proof.
  intros Hk. unfold flush_accepted.
  destruct (update_accepted db (<[k:=r]> db) k r) eqn:Hacc.
  - apply bool_decide_eq_true_2.
    intros j x [[<- <-]|[_ Hj]]%lookup_insert_Some; [done|].
    by apply update_accepted_unchanged.
  - apply bool_decide_eq_false_2. intros Hall.
    specialize (Hall k r (lookup_insert_eq _ _ _)). simpl in Hall. congruence.
Qed.

Lemma get_scoped_session_raise {A} (body : Tx A) (db : Table) (e : exception) :
  (get_scoped_session body db).2 = Raise e → (get_scoped_session body db).1 = db.
Proof.
  unfold get_scoped_session.
  destruct (body db) as [w [a|e']]; [|done].
  by destruct (flush_accepted db w).
Qed.

(** ** [update], characterised *)

Ltac case_truthy self :=
  destruct (truthy (account_number self)) eqn:?,
    (truthy (account_type self)) eqn:?,
    (truthy (depositor_1 self)) eqn:?, (truthy (amount self)) eqn:?,
    (truthy (maturity_date self)) eqn:?, (truthy (agent self)) eqn:?.

Lemma updated_row_columns (self row : Account) :
  id (updated_row self row) = id row
  ∧ account_number (updated_row self row)
    = (if truthy (account_number self) then account_number self
       else account_number row)
  ∧ account_type (updated_row self row)
    = (if truthy (account_type self) then account_type self
       else account_type row)
  ∧ depositor_1 (updated_row self row)
    = (if truthy (depositor_1 self) then depositor_1 self else depositor_1 row)
  ∧ depositor_2 (updated_row self row)
    = (if truthy (account_type self)
       then if str_eq_AccountType (account_type self) JOINT
            then depositor_2 self else None
       else depositor_2 row)
  ∧ amount (updated_row self row)
    = (if truthy (amount self) then amount self else amount row)
  ∧ maturity_date (updated_row self row)
    = (if truthy (maturity_date self) then maturity_date self
       else maturity_date row)
  ∧ agent (updated_row self row)
    = (if truthy (agent self) then agent self else agent row).
Proof.
  unfold updated_row, assign_type, assign_if_truthy.
  case_truthy self; repeat split; reflexivity.
Qed.

Lemma update_accepted_updated_row (db : Table) (k : Z) (self row : Account) :
  db !! k = Some row →
  update_accepted db (<[k:=updated_row self row]> db) k (updated_row self row)
  = number_accepted db k self row.
Proof.
  intros Hrow. unfold update_accepted, number_accepted.
  rewrite Hrow, number_taken_insert.
  destruct (updated_row_columns self row)
    as (_ & -> & -> & -> & _ & -> & -> & ->).
  case_truthy self;
    rewrite ?changed_not_null_same, ?changed_not_null_truthy by done;
    cbn [andb negb orb]; try reflexivity.
  all: by rewrite bool_decide_eq_true_2.
Qed.

Lemma update_found (self : Account) (k : Z) (row : Account) (db : Table) :
  id self = Some k → db !! k = Some row →
  update self db =
    if joint_without_depositor_2 self
    then (db, Raise (ValueError
                "Since account type is joint, hence 2nd depositor is must"))
    else if number_accepted db k self row
    then (<[k:=updated_row self row]> db, Return ())
    else (db, Raise IntegrityError).
Proof.
  intros Hid Hrow. unfold update, get_scoped_session.
  rewrite (update_body_found self k row db Hid Hrow).
  destruct (joint_without_depositor_2 self); [done|].
  rewrite (flush_accepted_assigned db k row _ Hrow).
  by rewrite (update_accepted_updated_row db k self row Hrow).
Qed.

Lemma update_unknown (self : Account) (db : Table) :
  (∀ k, id self = Some k → db !! k = None) →
  update self db =
    (db, Raise (ValueError ("Unknown account id: " +:+ format_id (id self)))).
Proof.
  intros Hnone. unfold update, get_scoped_session.
  by rewrite (update_body_unknown self db Hnone).
Qed.

Lemma lookup_id_cases (self : Account) (db : Table) :
  (∃ k row, id self = Some k ∧ db !! k = Some row)
  ∨ (∀ k, id self = Some k → db !! k = None).
Proof.
  destruct (id self) as [k|]; [|right; discriminate].
  destruct (db !! k) as [row|] eqn:Hrow; [left; eauto|].
  right. by intros ? [= <-].
Qed.

Lemma update_returns_inv (self : Account) (db db' : Table) :
  update self db = (db', Return ()) →
  ∃ k row, id self = Some k ∧ db !! k = Some row
    ∧ joint_without_depositor_2 self = false
    ∧ db' = <[k:=updated_row self row]> db.
Proof.
  intros Hupd.
  destruct (lookup_id_cases self db) as [(k & row & Hid & Hrow)|Hnone].
  - rewrite (update_found self k row db Hid Hrow) in Hupd.
    destruct (joint_without_depositor_2 self); [done|].
    destruct (number_accepted db k self row); [|done].
    injection Hupd as <-. eauto 10.
  - by rewrite (update_unknown self db Hnone) in Hupd.
Qed.

(** ** Validation and [save], characterised *)

Lemma first_missing_filled (self : Account) :
  first_missing (required_fields self) = false ↔ required_filled self.
Proof.
  unfold required_filled, required_fields. simpl.
  case_truthy self; simpl; intuition congruence.
Qed.

Lemma _is_valid_missing (self : Account) :
  ¬ required_filled self →
  _is_valid self
  = Return (false, "Please make sure required fields are filled correctly!").
Proof.
  intros Hmiss. unfold _is_valid.
  destruct (first_missing (required_fields self)) eqn:Hfirst; [done|].
  by apply first_missing_filled in Hfirst.
Qed.

Lemma _is_valid_filled (self : Account) :
  required_filled self → _is_valid self = _is_valid_joint_account self.
Proof.
  intros Hfilled. unfold _is_valid.
  by rewrite (proj2 (first_missing_filled self) Hfilled).
Qed.


(** A string-valued member equals [JOINT] exactly when the looked-up value is
    the value of [JOINT], whichever member the look-up returns. *)
Lemma AccountType_call_JOINT (s : string) (t : AccountType) :
  AccountType_call (Some s) = Return t →
  AccountType_eq t JOINT = bool_decide (s = JOINT_value).
Proof.
  unfold AccountType_call, AccountType_eq.
  destruct (bool_decide (s = SINGLE_value)) eqn:Hs.
  - intros [= <-]. apply bool_decide_eq_true_1 in Hs as ->. done.
  - destruct (bool_decide (s = JOINT_value)) eqn:Hj; [|done].
    intros [= <-]. simpl. by rewrite bool_decide_eq_true_2.
Qed.

Lemma _is_valid_joint_account_ok (self : Account) (message : string) :
  _is_valid_joint_account self = Return (true, message) →
  account_type self = Some JOINT_value → truthy (depositor_2 self) = true.
Proof.
  unfold _is_valid_joint_account. intros Hvalid Htype. rewrite Htype in Hvalid.
  destruct (AccountType_call (Some JOINT_value)) as [t|e] eqn:Hcall; [|done].
  rewrite (AccountType_call_JOINT _ _ Hcall), bool_decide_eq_true_2 in Hvalid
    by done.
  by destruct (truthy (depositor_2 self)).
Qed.

Lemma add_flush_session (self : Account) (db : Table) :
  get_scoped_session (add_flush self) db =
    let k := default (next_id db) (id self) in
    if not_null (with_id (Some k) self)
         && negb (bool_decide (is_Some (db !! k)))
         && negb (number_taken db k (account_number self))
    then (<[k:=with_id (Some k) self]> db, Return k)
    else (db, Raise IntegrityError).
Proof.
  unfold get_scoped_session, add_flush. cbv zeta.
  destruct (not_null _); simpl; [|done].
  destruct (bool_decide (is_Some _)) eqn:Hkey; simpl; [done|].
  destruct (number_taken _ _ _); simpl; [done|].
  rewrite flush_accepted_inserted; [done|].
  apply bool_decide_eq_false_1 in Hkey.
  by apply eq_None_not_Some.
Qed.

Lemma save_returns_inv (self : Account) (db db' : Table) (k : Z) :
  save self db = (db', Return k) →
  (∃ message, _is_valid self = Return (true, message))
  ∧ k = default (next_id db) (id self)
  ∧ db !! k = None
  ∧ db' = <[k:=with_id (Some k) self]> db.
Proof.
  unfold save. destruct (_is_valid self) as [[[] message]|e]; [|done..].
  rewrite add_flush_session. cbv zeta.
  destruct (not_null _); simpl; [|done].
  destruct (bool_decide (is_Some _)) eqn:Hkey; simpl; [done|].
  destruct (number_taken _ _ _); simpl; [done|].
  intros [= <- <-]. apply bool_decide_eq_false_1 in Hkey.
  split_and!; [eauto | done | by apply eq_None_not_Some | done].
Qed.

(** ** Messages *)

Lemma app_not_empty (a b : string) : b ≠ "" → a +:+ b ≠ "".
Proof. intros Hb. destruct a; [done|discriminate]. Qed.

Lemma last_char_app (a b : string) :
  b ≠ "" → last_char (a +:+ b) = last_char b.
Proof.
  intros Hb. induction a as [|c a IH]; [done|].
  simpl. rewrite <- IH.
  destruct (a +:+ b) eqn:Hab; [|done].
  by apply app_not_empty in Hab.
Qed.

Lemma enum_message_not_validation (prefix t : string) :
  prefix +:+ " is not a valid AccountType"
    ≠ "Please make sure required fields are filled correctly!"
  ∧ prefix +:+ " is not a valid AccountType"
    ≠ "Since account type is " +:+ t +:+ ", hence 2nd depositor is must".
Proof.
  split; intros Heq; apply (f_equal last_char) in Heq;
    rewrite !last_char_app in Heq by (try apply app_not_empty; done);
    vm_compute in Heq; discriminate.
Qed.

(** ** The properties *)

Lemma number_free_accepted (db : Table) (k : Z) (self row : Account) :
  truthy (account_number self) = false
  ∨ account_number self = account_number row
  ∨ number_free db k (account_number self) →
  number_accepted db k self row = true.
Proof.
  unfold number_accepted. intros [->|[->|Hfree]]; [done| |].
  - rewrite bool_decide_eq_true_2 by done. by rewrite orb_true_r.
  - rewrite (number_taken_false _ _ _ Hfree). by rewrite orb_true_r.
Qed.


(** C4, as amended. When at least one of the six required fields is empty
    (an [amount] of 0 included), [save] raises the validation error with the
    message [Please make sure required fields are filled correctly!] and
    inserts no row. *)
Theorem save_required_field_missing (self : Account) (db : Table) :
  truthy (account_number self) = false ∨ truthy (account_type self) = false
  ∨ truthy (depositor_1 self) = false ∨ truthy (amount self) = false
  ∨ truthy (maturity_date self) = false ∨ truthy (agent self) = false →
  save self db
  = (db, Raise (ValueError
                  "Please make sure required fields are filled correctly!")).
Proof.
  intros Hmiss. unfold save. rewrite _is_valid_missing; [done|].
  intros (H1 & H2 & H3 & H4 & H5 & H6). intuition congruence.
Qed.


(** C9. An [update] whose instance has [account_type] empty leaves the stored
    [depositor_2] of every row as it was, whatever [depositor_2] the instance
    carries. *)
Theorem update_without_type_keeps_depositor_2 (self : Account) (db : Table) :
  truthy (account_type self) = false →
  ∀ k, depositor_2 <$> (update self db).1 !! k = depositor_2 <$> db !! k.
Proof.
  intros Htype j.
  destruct (lookup_id_cases self db) as [(k & row & Hid & Hrow)|Hnone].
  - rewrite (update_found self k row db Hid Hrow).
    unfold joint_without_depositor_2. rewrite Htype. simpl.
    destruct (number_accepted db k self row); [|done]. simpl.
    destruct (decide (k = j)) as [<-|Hne].
    + rewrite lookup_insert_eq, Hrow. simpl. f_equal.
      destruct (updated_row_columns self row) as (_ & _ & _ & _ & -> & _).
      by rewrite Htype.
    + by rewrite lookup_insert_ne.
  - by rewrite (update_unknown self db Hnone).
Qed.

(** C10. When the six required fields are non-empty and [account_type] is
    the value of neither member of [AccountType], [save] raises the error of
    the look-up [AccountType(self.account_type)], which is neither of the two
    messages of the validation rules, and inserts no row. *)
Theorem save_unknown_account_type (self : Account) (db : Table) (t : string) :
  required_filled self →
  account_type self = Some t → t ≠ SINGLE_value → t ≠ JOINT_value →
  save self db
  = (db, Raise (ValueError (repr t +:+ " is not a valid AccountType")))
  ∧ repr t +:+ " is not a valid AccountType"
    ≠ "Please make sure required fields are filled correctly!"
  ∧ repr t +:+ " is not a valid AccountType"
    ≠ "Since account type is " +:+ t +:+ ", hence 2nd depositor is must".
Proof.
  intros Hfilled Htype Hsingle Hjoint. split.
  - unfold save. rewrite (_is_valid_filled self Hfilled).
    unfold _is_valid_joint_account, AccountType_call. rewrite Htype.
    by rewrite !bool_decide_eq_false_2 by done.
  - apply enum_message_not_validation.
Qed.



(** C6. Whenever [update] or [save] raises (the not-found error, a
    validation error, the error of the enumeration look-up or a storage
    error), the table after the call is the table before it. This holds also
    when the exception leaves [update] after the session's row was assigned
    to: a JOINT instance without [depositor_2] but with an [account_number]
    has the row's [account_number] and [account_type] overwritten inside
    the session when the validation error is raised, and none of it is
    committed. *)
Theorem failure_rolls_back (self : Account) (db : Table) :
  (∀ e, (update self db).2 = Raise e → (update self db).1 = db)
  ∧ (∀ e, (save self db).2 = Raise e → (save self db).1 = db)
  ∧ (∀ k row, id self = Some k → db !! k = Some row →
     truthy (account_number self) = true →
     truthy (account_type self) = true →
     account_type self = Some JOINT_value →
     truthy (depositor_2 self) = false →
     update_body self db
     = (<[k:=with_account_type (account_type self)
               (with_account_number (account_number self) row)]> db,
        Raise (ValueError
                 "Since account type is joint, hence 2nd depositor is must"))
     ∧ update self db
       = (db, Raise (ValueError
                 "Since account type is joint, hence 2nd depositor is must"))).
Proof.
  split_and!.
  - intros e. apply get_scoped_session_raise.
  - intros e. unfold save.
    destruct (_is_valid self) as [[[] message]|e']; [|done..].
    apply get_scoped_session_raise.
  - intros k row Hid Hrow Hnumber Htype Hjoint Hdep.
    assert (joint_without_depositor_2 self = true) as Hbad.
    { unfold joint_without_depositor_2, str_eq_AccountType.
      by rewrite Htype, Hdep, bool_decide_eq_true_2. }
    rewrite (update_body_found self k row db Hid Hrow),
      (update_found self k row db Hid Hrow), Hbad.
    unfold assign_if_truthy. by rewrite Hnumber.
Qed.


(** ** Further properties: [fetch] *)


Lemma query_filter_id_in_singleton (k : Z) (w : Table) :
  query_filter_id_in [k] w = match w !! k with Some r => [r] | None => [] end.
Proof.
  unfold query_filter_id_in.
  assert (filter (λ kr : Z * Account, kr.1 ∈ [k]) w
          = match w !! k with Some r => {[k:=r]} | None => ∅ end) as ->.
  { apply map_eq. intros i. apply option_eq. intros r.
    rewrite map_lookup_filter_Some. simpl. rewrite list_elem_of_singleton.
    destruct (w !! k) as [r'|] eqn:Hk.
    - rewrite lookup_singleton_Some. split; [intros [? ->]|intros [-> ->]];
        split; congruence.
    - rewrite lookup_empty. split; [intros [? ->]; congruence|done]. }
  destruct (w !! k); [by rewrite map_to_list_singleton|by rewrite map_to_list_empty].
Qed.



(** X3. The result of [fetch] depends only on which identifiers are asked
    for: repeating an identifier or reordering them gives the same rows,
    each once. *)
Theorem fetch_ignores_repeats_and_order (db : Table) (ids ids' : list Z) :
  (∀ k, k ∈ ids ↔ k ∈ ids') → fetch db ids ≡ₚ fetch db ids'.
Proof.
  intros Hsame. unfold fetch, get_session, query_filter_id_in.
  assert (filter (λ kr : Z * Account, kr.1 ∈ ids) db
          = filter (λ kr : Z * Account, kr.1 ∈ ids') db) as ->; [|done].
  apply map_filter_ext. intros k r _. apply Hsame.
Qed.

(** ** Further properties: the outcomes of [update] and [save] *)

Lemma update_cases (self : Account) (db : Table) :
  (∃ e, update self db = (db, Raise e))
  ∨ (∃ k row, id self = Some k ∧ db !! k = Some row
       ∧ joint_without_depositor_2 self = false
       ∧ number_accepted db k self row = true
       ∧ update self db = (<[k:=updated_row self row]> db, Return ())).
Proof.
  destruct (lookup_id_cases self db) as [(k & row & Hid & Hrow)|Hnone].
  - rewrite (update_found self k row db Hid Hrow).
    destruct (joint_without_depositor_2 self) eqn:Hjoint; [eauto|].
    destruct (number_accepted db k self row) eqn:Hnumber; [|eauto].
    right. exists k, row. done.
  - rewrite (update_unknown self db Hnone). eauto.
Qed.

Lemma _is_valid_true (self : Account) (message : string) :
  _is_valid self = Return (true, message) → message = "" ∧ valid self.
Proof.
  unfold _is_valid, valid.
  destruct (first_missing (required_fields self)) eqn:Hfirst; [done|].
  apply first_missing_filled in Hfirst. intros Hjoint.
  assert (message = "") as ->.
  { unfold _is_valid_joint_account in Hjoint.
    destruct (AccountType_call _); [|done].
    destruct (_ && _); congruence. }
  split_and!; [done..| |by apply (_is_valid_joint_account_ok self "")].
  unfold _is_valid_joint_account, AccountType_call in Hjoint.
  destruct (account_type self) as [s|]; [|done].
  repeat case_bool_decide; naive_solver.
Qed.

Lemma valid__is_valid (self : Account) :
  valid self → _is_valid self = Return (true, "").
Proof.
  intros (Hfilled & Hmember & Hjoint).
  rewrite (_is_valid_filled self Hfilled). unfold _is_valid_joint_account.
  destruct (account_type self) as [s|] eqn:Htype; [|by destruct Hmember].
  destruct (AccountType_call (Some s)) as [t|e] eqn:Hcall.
  - rewrite (AccountType_call_JOINT s t Hcall).
    case_bool_decide as Hs; [|done]. subst s. by rewrite Hjoint.
  - unfold AccountType_call in Hcall.
    repeat case_bool_decide; try done. destruct Hmember; congruence.
Qed.

Lemma save_cases (self : Account) (db : Table) :
  (∃ e, save self db = (db, Raise e))
  ∨ (∃ k, valid self ∧ k = default (next_id db) (id self)
       ∧ db !! k = None
       ∧ number_taken db k (account_number self) = false
       ∧ save self db = (<[k:=with_id (Some k) self]> db, Return k)).
Proof.
  unfold save.
  destruct (_is_valid self) as [[[] message]|e] eqn:Hvalid; [|eauto..].
  apply _is_valid_true in Hvalid as [_ Hvalid].
  rewrite add_flush_session. cbv zeta.
  destruct (not_null _); simpl; [|eauto].
  destruct (bool_decide (is_Some _)) eqn:Hkey; simpl; [eauto|].
  destruct (number_taken _ _ _) eqn:Hnumber; simpl; [eauto|].
  right. eexists. split_and!; [done..| |done|done].
  apply bool_decide_eq_false_1 in Hkey. by apply eq_None_not_Some.
Qed.



Lemma joint_without_depositor_2_false (self : Account) :
  joint_without_depositor_2 self = false
  ↔ ¬ (truthy (account_type self) = true
       ∧ account_type self = Some JOINT_value
       ∧ truthy (depositor_2 self) = false).
Proof using SINGLE_value JOINT_value.
  unfold joint_without_depositor_2, str_eq_AccountType. simpl.
  destruct (truthy (account_type self)), (truthy (depositor_2 self));
    case_bool_decide as Hjoint; simpl;
    (split; [intros Heq (? & ? & ?); try done|intros Hnot; try done]).
  by destruct Hnot.
Qed.

(** X4. Validation accepts an instance exactly when its six required fields
    are non-empty, its [account_type] is the value of a member of the
    enumeration and, if that member is JOINT, [depositor_2] is non-empty;
    the message that comes with an acceptance is always empty. *)
Theorem _is_valid_accepts_exactly (self : Account) :
  (_is_valid self = Return (true, "") ↔ valid self)
  ∧ (∀ message, _is_valid self = Return (true, message) → message = "").
Proof.
  split; [split|].
  - intros Hvalid. by apply _is_valid_true in Hvalid as [_ ?].
  - apply valid__is_valid.
  - intros message Hvalid. by apply _is_valid_true in Hvalid as [? _].
Qed.




(** ** Further properties: what the writes leave alone *)

(** X8. [update] neither creates nor deletes a row: the set of keys of the
    table is the same after the call, whatever its outcome. *)
Theorem update_keeps_keys (self : Account) (db : Table) :
  dom (update self db).1 = dom db.
Proof.
  destruct (update_cases self db)
    as [[e Hupd]|(k & row & _ & Hrow & _ & _ & Hupd)]; rewrite Hupd; [done|].
  simpl. apply dom_insert_lookup_L. eauto.
Qed.

(** X9. [update] touches no row other than the one the instance's [id]
    names. *)
Theorem update_other_rows_unchanged (self : Account) (db : Table) (j : Z) :
  id self ≠ Some j → (update self db).1 !! j = db !! j.
Proof.
  intros Hother.
  destruct (update_cases self db)
    as [[e Hupd]|(k & row & Hid & _ & _ & _ & Hupd)]; rewrite Hupd; [done|].
  simpl. apply lookup_insert_ne. congruence.
Qed.

(** X10. [save] never modifies or removes a stored row, and adds at most one
    row. *)
Theorem save_keeps_stored_rows (self : Account) (db : Table) :
  db ⊆ (save self db).1 ∧ (size (save self db).1 ≤ S (size db))%nat.
Proof.
  destruct (save_cases self db)
    as [[e Hsave]|(k & _ & _ & Hfree & _ & Hsave)]; rewrite Hsave; simpl.
  - split; [done|lia].
  - split; [by apply insert_subseteq|].
    rewrite map_size_insert_None by done. lia.
Qed.

(** ** Further properties: invariants of the table *)

Lemma required_filled_updated_row (self row : Account) :
  required_filled row → required_filled (updated_row self row).
Proof.
  unfold required_filled. intros (H1 & H2 & H3 & H4 & H5 & H6).
  destruct (updated_row_columns self row)
    as (_ & -> & -> & -> & _ & -> & -> & ->).
  case_truthy self; done.
Qed.

Lemma depositor_2_iff_joint_updated_row (self row : Account) :
  joint_without_depositor_2 self = false →
  depositor_2_iff_joint row → depositor_2_iff_joint (updated_row self row).
Proof.
  unfold depositor_2_iff_joint, joint_without_depositor_2, str_eq_AccountType.
  simpl. intros Hok Hrow.
  destruct (updated_row_columns self row) as (_ & _ & -> & _ & -> & _).
  unfold str_eq_AccountType. simpl.
  destruct (truthy (account_type self)); [|done]. simpl in Hok.
  case_bool_decide as Hjoint; simpl in *.
  - destruct (truthy (depositor_2 self)); [done|discriminate].
  - split; [discriminate|done].
Qed.

Lemma updated_row_idempotent (self row : Account) :
  updated_row self (updated_row self row) = updated_row self row.
Proof.
  unfold updated_row, assign_type, assign_if_truthy.
  case_truthy self;
    destruct (str_eq_AccountType (account_type self) JOINT); reflexivity.
Qed.

(** X11. Stored rows keep their six required columns non-empty: if every
    row of the table has them non-empty, so has every row after a [save] and
    after an [update], whatever the outcome. In particular no update blanks
    a required column or sets [amount] to 0. *)
Theorem writes_keep_required_filled (self : Account) (db : Table) :
  map_Forall (λ _ row, required_filled row) db →
  map_Forall (λ _ row, required_filled row) (save self db).1
  ∧ map_Forall (λ _ row, required_filled row) (update self db).1.
Proof.
  intros Hinv. split.
  - destruct (save_cases self db)
      as [[e Hsave]|(k & (Hfilled & _) & _ & _ & _ & Hsave)];
      rewrite Hsave; [done|].
    by apply map_Forall_insert_2.
  - destruct (update_cases self db)
      as [[e Hupd]|(k & row & _ & Hrow & _ & _ & Hupd)]; rewrite Hupd; [done|].
    apply map_Forall_insert_2; [|done].
    apply required_filled_updated_row, (Hinv k row Hrow).
Qed.

(** X12. Every row carries its own key as [id]: if that holds of the table,
    it holds after a [save] and after an [update]; [update] never changes
    the [id] of a row and [save] stores the key it returns. *)
Theorem writes_keep_ids_consistent (self : Account) (db : Table) :
  ids_consistent db →
  ids_consistent (save self db).1 ∧ ids_consistent (update self db).1.
Proof.
  intros Hinv. split.
  - destruct (save_cases self db)
      as [[e Hsave]|(k & _ & _ & _ & _ & Hsave)]; rewrite Hsave; simpl; [done|].
    intros j r [[<- <-]|[_ Hj]]%lookup_insert_Some; [done|by apply Hinv].
  - destruct (update_cases self db)
      as [[e Hupd]|(k & row & _ & Hrow & _ & _ & Hupd)]; rewrite Hupd; simpl; [done|].
    intros j r [[<- <-]|[_ Hj]]%lookup_insert_Some; [|by apply Hinv].
    destruct (updated_row_columns self row) as (-> & _). by apply Hinv.
Qed.



(** X14. [update] keeps the joint-account rule in both directions: if in
    every row [depositor_2] is populated exactly when the [account_type] is
    JOINT, the same is true after an [update], whatever the outcome. *)
Theorem update_keeps_depositor_2_iff_joint (self : Account) (db : Table) :
  map_Forall (λ _ row, depositor_2_iff_joint row) db →
  map_Forall (λ _ row, depositor_2_iff_joint row) (update self db).1.
Proof.
  intros Hinv.
  destruct (update_cases self db)
    as [[e Hupd]|(k & row & _ & Hrow & Hjoint & _ & Hupd)]; rewrite Hupd;
    simpl; [done|].
  apply map_Forall_insert_2; [|done].
  apply depositor_2_iff_joint_updated_row; [done|]. apply (Hinv k row Hrow).
Qed.

(** ** Further properties: how the operations compose *)

(** X15. [update] is idempotent: an update that went through can be repeated
    with the same instance, and the repetition goes through and changes
    nothing. *)
Theorem update_idempotent (self : Account) (db db' : Table) :
  update self db = (db', Return ()) → update self db' = (db', Return ()).
Proof.
  intros (k & row & Hid & Hrow & Hjoint & ->)%update_returns_inv.
  rewrite (update_found self k (updated_row self row) _ Hid)
    by apply lookup_insert_eq.
  rewrite Hjoint, updated_row_idempotent, insert_insert_eq.
  assert (number_accepted (<[k:=updated_row self row]> db) k self
            (updated_row self row) = true) as ->; [|done].
  unfold number_accepted.
  destruct (updated_row_columns self row) as (_ & -> & _).
  destruct (truthy (account_number self)); [|done].
  by rewrite bool_decide_eq_true_2.
Qed.

(** X16. An [update] whose instance has none of the six updatable fields
    non-empty goes through and changes nothing, also when the instance
    carries a [depositor_2]: [depositor_2] alone cannot be updated. *)
Theorem update_nothing_to_assign (self : Account) (db : Table) (k : Z) (row : Account) :
  id self = Some k → db !! k = Some row →
  truthy (account_number self) = false → truthy (account_type self) = false →
  truthy (depositor_1 self) = false → truthy (amount self) = false →
  truthy (maturity_date self) = false → truthy (agent self) = false →
  update self db = (db, Return ()).
Proof.
  intros Hid Hrow Hnumber Htype Hdep Hamount Hdate Hagent.
  rewrite (update_found self k row db Hid Hrow).
  unfold joint_without_depositor_2, number_accepted, updated_row,
    assign_type, assign_if_truthy.
  rewrite Hamount, Hnumber, Htype, Hdep, Hdate, Hagent. simpl.
  by rewrite insert_id.
Qed.

(** X17. What [save] stored, [fetch] returns: after a [save] that returned
    [k], fetching [k] gives exactly the instance, with [k] as its [id];
    before the [save], fetching [k] gave nothing. *)
Theorem save_then_fetch (self : Account) (db db' : Table) (k : Z) :
  save self db = (db', Return k) →
  fetch db' [k] = [with_id (Some k) self] ∧ fetch db [k] = [].
Proof.
  intros (_ & _ & Hfree & ->)%save_returns_inv.
  unfold fetch, get_session. rewrite !query_filter_id_in_singleton.
  by rewrite lookup_insert_eq, Hfree.
Qed.

(** X18. [update] does not disturb what [fetch] returns for other
    identifiers: if the instance's [id] is not among the identifiers asked
    for, [fetch] returns the same rows before and after the [update]. *)
Theorem update_then_fetch_others (self : Account) (db : Table) (ids : list Z) :
  (∀ k, id self = Some k → k ∉ ids) →
  fetch (update self db).1 ids ≡ₚ fetch db ids.
Proof.
  intros Hother.
  destruct (update_cases self db)
    as [[e Hupd]|(k & row & Hid & Hrow & _ & _ & Hupd)]; rewrite Hupd; simpl; [done|].
  simpl. unfold fetch, get_session, query_filter_id_in.
  rewrite map_filter_insert_not' ; [done| |].
  - simpl. by apply Hother.
  - intros r _. simpl. by apply Hother.
Qed.


(** X20. Writing a stored row back is a no-op: an [update] whose instance is
    the stored row itself goes through and changes nothing, provided the row
    is JOINT with [depositor_2] non-empty or is not JOINT and has no
    [depositor_2]. *)
Theorem update_with_stored_row (db : Table) (k : Z) (row : Account) :
  db !! k = Some row → id row = Some k →
  (account_type row = Some JOINT_value ∧ truthy (depositor_2 row) = true)
  ∨ (account_type row ≠ Some JOINT_value ∧ depositor_2 row = None) →
  update row db = (db, Return ()).
Proof using SINGLE_value JOINT_value.
  intros Hrow Hid Hrule.
  rewrite (update_found row k row db Hid Hrow).
  assert (joint_without_depositor_2 row = false) as ->.
  { apply joint_without_depositor_2_false. intros (_ & Hjoint & Hdep).
    destruct Hrule as [[_ Hdep']|[Hne _]]; [by rewrite Hdep in Hdep'|done]. }
  rewrite (number_free_accepted db k row row) by auto.
  assert (updated_row row row = row) as ->; [|by rewrite insert_id].
  unfold updated_row, assign_type, assign_if_truthy, str_eq_AccountType.
  simpl. destruct Hrule as [[Hjoint _]|[Hne Hdep]].
  - rewrite (bool_decide_eq_true_2 _ Hjoint).
    case_truthy row; by destruct row.
  - rewrite (bool_decide_eq_false_2 _ Hne).
    case_truthy row; destruct row; simpl in Hdep; by rewrite Hdep.
Qed.

End Account.

(** ** The properties on the sample data *)

Local Abbreviation save_ := (save "single" "joint" repr_plain).
Local Abbreviation update_ := (update "single" "joint").

(** The spec's example: the first account saved gets the identifier 1. *)
Example save_ram_returns_1 : save_ ram ∅ = (one_account, Return 1).
Proof. vm_compute. reflexivity. Qed.


(** C4 as stated fails: an account with [amount] 0 is refused, but the
    message is not [required fields missing.] *)
Lemma save_zero_amount_message :
  truthy (amount (with_amount (Some 0) ram)) = false
  ∧ save_ (with_amount (Some 0) ram) ∅
    ≠ (∅, Raise (ValueError "required fields missing.")).
Proof. split; [reflexivity|]. vm_compute. discriminate. Qed.

Lemma save_required_field_missing_witness :
  save_ (with_amount (Some 0) ram) ∅
  = (∅, Raise (ValueError
                 "Please make sure required fields are filled correctly!")).
Proof.
  apply (save_required_field_missing "single" "joint" repr_plain).
  right; right; right; left. reflexivity.
Defined.


(** C9: the instance carries a [depositor_2] but no [account_type]. *)
Lemma update_without_type_keeps_depositor_2_witness :
  depositor_2 <$>
    (update_ (with_depositor_2 (Some "Lakshman") (with_id (Some 2) blank))
       two_accounts).1 !! 2
  = depositor_2 <$> two_accounts !! 2.
Proof.
  apply (update_without_type_keeps_depositor_2 "single" "joint"
           (with_depositor_2 (Some "Lakshman") (with_id (Some 2) blank))
           two_accounts).
  reflexivity.
Defined.

(** C10 on an [account_type] that is not a value of the enumeration. *)
Lemma save_unknown_account_type_witness :
  save_ (with_account_type (Some "recurring") ram) ∅
  = (∅, Raise (ValueError "'recurring' is not a valid AccountType")).
Proof.
  apply (save_unknown_account_type "single" "joint" repr_plain
           (with_account_type (Some "recurring") ram) ∅ "recurring");
    [repeat split | reflexivity | discriminate | discriminate].
Defined.




(** C6: the instance assigns a new [account_number] and the JOINT type
    before the validation error is raised; the table comes back unchanged. *)
Lemma failure_rolls_back_witness :
  let self := with_account_type (Some "joint")
                (with_account_number (Some "1000099999")
                   (with_id (Some 1) blank)) in
  (update_body "single" "joint" self one_account).1 ≠ one_account
  ∧ (update_ self one_account).1 = one_account
  ∧ (save_ ram one_account).1 = one_account.
Proof.
  intros self. split_and!.
  - vm_compute. discriminate.
  - apply (proj1 (failure_rolls_back "single" "joint" repr_plain
                    self one_account))
      with (e := ValueError
                   "Since account type is joint, hence 2nd depositor is must").
    reflexivity.
  - apply (proj1 (proj2 (failure_rolls_back "single" "joint" repr_plain
                           ram one_account)))
      with (e := IntegrityError).
    reflexivity.
Defined.





(** ** The further properties on the sample data *)

(** X3: asking twice for 2 and in another order. *)
Lemma fetch_ignores_repeats_and_order_witness :
  fetch two_accounts [2; 2; 1] ≡ₚ fetch two_accounts [1; 2].
Proof.
  apply (fetch_ignores_repeats_and_order two_accounts [2; 2; 1] [1; 2]).
  intros k. rewrite !elem_of_cons. tauto.
Defined.


(** X9: an update of row 2 leaves row 1 alone. *)
Lemma update_other_rows_unchanged_witness :
  (update_ (with_amount (Some 7) (with_id (Some 2) blank)) two_accounts).1 !! 1
  = two_accounts !! 1.
Proof.
  apply (update_other_rows_unchanged "single" "joint"
           (with_amount (Some 7) (with_id (Some 2) blank)) two_accounts 1).
  discriminate.
Defined.

Lemma one_account_required_filled :
  map_Forall (λ _ row, required_filled row) one_account.
Proof.
  apply map_Forall_insert_2; [repeat split | apply map_Forall_empty].
Qed.

Lemma one_account_ids_consistent : ids_consistent one_account.
Proof.
  unfold ids_consistent, one_account.
  intros k r [[<- <-]|[_ Hk]]%lookup_insert_Some; [done|].
  by rewrite lookup_empty in Hk.
Qed.


(** X11, X12, X13: saving the joint account into, and updating the row of,
    the table that holds one account. *)
Lemma writes_keep_required_filled_witness :
  map_Forall (λ _ row, required_filled row) (save_ sita_and_ram one_account).1
  ∧ map_Forall (λ _ row, required_filled row)
      (update_ (with_amount (Some 7) (with_id (Some 1) blank)) one_account).1.
Proof.
  split.
  - apply (writes_keep_required_filled "single" "joint" repr_plain
             sita_and_ram one_account one_account_required_filled).
  - apply (writes_keep_required_filled "single" "joint" repr_plain
             (with_amount (Some 7) (with_id (Some 1) blank)) one_account
             one_account_required_filled).
Defined.

Lemma writes_keep_ids_consistent_witness :
  ids_consistent (save_ sita_and_ram one_account).1
  ∧ ids_consistent
      (update_ (with_amount (Some 7) (with_id (Some 1) blank)) one_account).1.
Proof.
  split.
  - apply (writes_keep_ids_consistent "single" "joint" repr_plain
             sita_and_ram one_account one_account_ids_consistent).
  - apply (writes_keep_ids_consistent "single" "joint" repr_plain
             (with_amount (Some 7) (with_id (Some 1) blank)) one_account
             one_account_ids_consistent).
Defined.


(** X14: the joint account of the sample table is changed to a single one. *)
Lemma update_keeps_depositor_2_iff_joint_witness :
  map_Forall (λ _ row, depositor_2_iff_joint "joint" row)
    (update_ (with_account_type (Some "single") (with_id (Some 2) blank))
       two_accounts).1.
Proof.
  apply (update_keeps_depositor_2_iff_joint "single" "joint"
           (with_account_type (Some "single") (with_id (Some 2) blank))
           two_accounts).
  apply map_Forall_insert_2; [by split|].
  apply map_Forall_insert_2; [by split|apply map_Forall_empty].
Defined.

(** X15: the same update, twice. *)
Lemma update_idempotent_witness :
  let self := with_depositor_2 (Some "Sita")
                (with_account_type (Some "joint") (with_id (Some 1) blank)) in
  update_ self (update_ self one_account).1
  = ((update_ self one_account).1, Return ()).
Proof.
  intros self.
  apply (update_idempotent "single" "joint" self one_account). reflexivity.
Defined.

(** X16: an instance that carries nothing but a [depositor_2]. *)
Lemma update_nothing_to_assign_witness :
  update_ (with_depositor_2 (Some "Lakshman") (with_id (Some 2) blank))
    two_accounts
  = (two_accounts, Return ()).
Proof.
  apply (update_nothing_to_assign "single" "joint"
           (with_depositor_2 (Some "Lakshman") (with_id (Some 2) blank))
           two_accounts 2 (with_id (Some 2) sita_and_ram)); reflexivity.
Defined.

(** X17: the first account saved is fetched back under the key 1. *)
Lemma save_then_fetch_witness :
  fetch one_account [1] = [with_id (Some 1) ram] ∧ fetch ∅ [1] = [].
Proof.
  apply (save_then_fetch "single" "joint" repr_plain ram ∅ one_account 1).
  reflexivity.
Defined.

(** X18: fetching row 1 around an update of row 2. *)
Lemma update_then_fetch_others_witness :
  fetch (update_ (with_amount (Some 7) (with_id (Some 2) blank))
           two_accounts).1 [1]
  ≡ₚ fetch two_accounts [1].
Proof.
  apply (update_then_fetch_others "single" "joint"
           (with_amount (Some 7) (with_id (Some 2) blank)) two_accounts [1]).
  intros k [= <-]. rewrite list_elem_of_singleton. discriminate.
Defined.


(** X20: the joint account of the sample table, written back as fetched. *)
Lemma update_with_stored_row_witness :
  update_ (with_id (Some 2) sita_and_ram) two_accounts
  = (two_accounts, Return ()).
Proof.
  apply (update_with_stored_row "single" "joint" two_accounts 2
           (with_id (Some 2) sita_and_ram));
    [reflexivity | reflexivity | left; split; reflexivity].
Defined.
